(** * astro.config.mjs: the build-tool configuration module

    The repository's program is one ES module, [astro.config.mjs].  It
    computes [__dirname] from [import.meta.url], builds one object literal
    and default-exports what [defineConfig] returns for it.

    The module calls five functions that it imports ([defineConfig] of
    astro/config, [svelte] of @astrojs/svelte, [fileURLToPath] of url,
    [path.dirname] and [path.resolve] of path).  None of them is defined in
    the repository, so the module is embedded as a program over an alphabet
    of external calls, and every theorem quantifies over the environment
    that answers them. *)

From Stdlib Require Import String Ascii List.
From stdpp Require Import base gmap strings list fin_maps.

Local Open Scope string_scope.
Set Warnings "-register-all".

(** ** JavaScript values *)

(** The values the module builds or passes on: strings, arrays, plain
    objects (string-keyed property maps) and host values it cannot look
    into, such as the hook functions of an integration. *)
Inductive value : Type :=
| VStr (s : string)
| VArr (items : list value)
| VObj (props : gmap string value)
| VHost (ref : positive).

(** Own-property lookup on a plain object: [get k o] is the own property
    [k] of [o], and [None] stands for no own property of that name.
    Inherited properties (such as [toString]) and reads through arrays or
    strings (indices, [length]) are not modelled: the theorems read only
    own properties of the plain objects the literal builds. *)
Definition get (k : string) (o : value) : option value :=
  match o with
  | VObj props => props !! k
  | _ => None
  end.

(** Own-property lookups along a path of names through nested plain
    objects. *)
Fixpoint get_path (ks : list string) (o : value) : option value :=
  match ks with
  | [] => Some o
  | k :: ks' =>
      match get k o with
      | Some o' => get_path ks' o'
      | None => None
      end
  end.

(** The own property names of a plain object. *)
Definition keys (o : value) : gset string :=
  match o with
  | VObj props => dom props
  | _ => ∅
  end.

(** ** External calls *)

(** One constructor per imported function the module applies, with the
    arguments it is applied to. *)
Inductive call : Type :=
| FileURLToPath (url : value)
| PathDirname (p : value)
| PathResolve (segments : list value)
| Svelte
| DefineConfig (config : value).

(** A call either returns a value or throws one. *)
Inductive completion (A : Type) : Type :=
| Normal (a : A)
| Throw (exn : value).
Arguments Normal {A} a.
Arguments Throw {A} exn.

(** Programs over the call alphabet. *)
Inductive prog (A : Type) : Type :=
| Ret (a : A)
| Call (c : call) (k : value -> prog A).
Arguments Ret {A} a.
Arguments Call {A} c k.

Fixpoint bind {A B : Type} (p : prog A) (f : A -> prog B) : prog B :=
  match p with
  | Ret a => f a
  | Call c k => Call c (fun v => bind (k v) f)
  end.

Definition invoke (c : call) : prog value := Call c Ret.

Declare Scope prog_scope.
Delimit Scope prog_scope with prog.
Notation "'const' x '<-' c ';;' k" := (bind c (fun x => k))
  (at level 100, x name, c at next level, right associativity) : prog_scope.

(** ** The module *)

Definition dquote : string := String "034"%char EmptyString.

(** The template literal of line 18; it has no substitution. *)
Definition additionalData_literal : string :=
  "@use " ++ dquote ++ "utils" ++ dquote ++ " as *;".

(** The object literal of lines 10-23, over the two values computed while it
    is evaluated: [integration] is what [svelte()] returned and [loadPath]
    what [path.resolve(__dirname, 'src/styles')] returned. *)
Definition config_literal (integration loadPath : value) : value :=
  VObj {[
    "integrations" := VArr [integration];
    "vite" := VObj {[
      "css" := VObj {[
        "preprocessorOptions" := VObj {[
          "scss" := VObj {[
            "api" := VStr "modern-compiler";
            "loadPaths" := VArr [loadPath];
            "additionalData" := VStr additionalData_literal
          ]}
        ]}
      ]}
    ]}
  ]}.

(** The module body in evaluation order: line 7, then the argument of
    [defineConfig] property by property, then [defineConfig] itself.  The
    result is the default export. *)
Definition astro_config (import_meta_url : string) : prog value :=
  (const filename <- invoke (FileURLToPath (VStr import_meta_url));;
   const __dirname <- invoke (PathDirname filename);;
   const integration <- invoke Svelte;;
   const loadPath <- invoke (PathResolve [__dirname; VStr "src/styles"]);;
   invoke (DefineConfig (config_literal integration loadPath)))%prog.

(** ** Evaluation in an environment *)

(** The environment answers each call.  It may keep state of its own (the
    process, the file system, the packages' internals), which is threaded
    through as [World]; the module never sees it. *)
Definition host (World : Type) : Type :=
  call -> World -> completion value * World.

Section Evaluation.
Context {World : Type}.
Variable h : host World.

(** A call that throws ends the evaluation with that exception: the
    module has no [try]. *)
Fixpoint run {A : Type} (p : prog A) (w : World) : completion A * World :=
  match p with
  | Ret a => (Normal a, w)
  | Call c k =>
      match h c w with
      | (Normal v, w') => run (k v) w'
      | (Throw exn, w') => (Throw exn, w')
      end
  end.

(** The calls issued during an evaluation, each with the world it was
    issued in, in order. *)
Fixpoint trace {A : Type} (p : prog A) (w : World) : list (call * World) :=
  match p with
  | Ret _ => []
  | Call c k =>
      (c, w) ::
      match h c w with
      | (Normal v, w') => trace (k v) w'
      | (Throw _, _) => []
      end
  end.

End Evaluation.

(** What an evaluation that reaches [defineConfig] has bound on the way,
    and the world each later call was issued in. *)
Record bindings (World : Type) : Type := Bindings {
  filename : value;
  at_dirname : World;
  __dirname : value;
  at_svelte : World;
  integration : value;
  at_resolve : World;
  loadPath : value;
  at_defineConfig : World
}.
Arguments Bindings {World}.
Arguments filename {World} b.
Arguments at_dirname {World} b.
Arguments __dirname {World} b.
Arguments at_svelte {World} b.
Arguments integration {World} b.
Arguments at_resolve {World} b.
Arguments loadPath {World} b.
Arguments at_defineConfig {World} b.

(** [b] holds the answers of the environment to the calls of lines 7, 11
    and 17, issued from the world [w] on. *)
Definition bound {World : Type} (h : host World) (url : string) (w : World)
    (b : bindings World) : Prop :=
  h (FileURLToPath (VStr url)) w = (Normal (filename b), at_dirname b) /\
  h (PathDirname (filename b)) (at_dirname b)
    = (Normal (__dirname b), at_svelte b) /\
  h Svelte (at_svelte b) = (Normal (integration b), at_resolve b) /\
  h (PathResolve [__dirname b; VStr "src/styles"]) (at_resolve b)
    = (Normal (loadPath b), at_defineConfig b).

(** The object literal with the bound values in place. *)
Definition literal_of {World : Type} (b : bindings World) : value :=
  config_literal (integration b) (loadPath b).

(** The five calls of a complete evaluation. *)
Definition calls_of {World : Type} (url : string) (w : World)
    (b : bindings World) : list (call * World) :=
  [ (FileURLToPath (VStr url), w);
    (PathDirname (filename b), at_dirname b);
    (Svelte, at_svelte b);
    (PathResolve [__dirname b; VStr "src/styles"], at_resolve b);
    (DefineConfig (literal_of b), at_defineConfig b) ].

(** The property path of the SCSS options in a configuration. *)
Definition scss_path : list string :=
  ["vite"; "css"; "preprocessorOptions"; "scss"].

(** [defineConfig] returns the object it is given. *)
Definition defineConfig_hands_back {World : Type} (h : host World) : Prop :=
  forall config w, (h (DefineConfig config) w).1 = Normal config.

(** The answers of the environment depend on the call only, not on the
    state the environment is in. *)
Definition answers_by_call {World : Type} (h : host World) : Prop :=
  forall c w1 w2, (h c w1).1 = (h c w2).1.

(** A well-formed module URL: one that [fileURLToPath] turns into a file
    path, in whatever state the environment is. *)
Definition well_formed_url {World : Type} (h : host World) (url : string)
    : Prop :=
  forall w, exists (file : string) w',
    h (FileURLToPath (VStr url)) w = (Normal (VStr file), w').

(** The imported functions keep their contracts: [path.dirname] returns a
    string for a string, [svelte()] returns an integration, [path.resolve]
    returns a string for two strings, and [defineConfig] returns its
    argument. *)
Definition imports_return {World : Type} (h : host World) : Prop :=
  (forall (file : string) w, exists (dir : string) w',
     h (PathDirname (VStr file)) w = (Normal (VStr dir), w')) /\
  (forall w, exists integ w', h Svelte w = (Normal integ, w')) /\
  (forall (dir segment : string) w, exists (resolved : string) w',
     h (PathResolve [VStr dir; VStr segment]) w
       = (Normal (VStr resolved), w')) /\
  defineConfig_hands_back h.

(** One of the five calls of the module, reached in the order of the
    source with every call before it returned, threw [exn] and left the
    world [w'].  The last call is [defineConfig] on the object of lines
    10-23, written out with the two answers in place. *)
Definition import_threw {World : Type} (h : host World) (url : string)
    (w : World) (exn : value) (w' : World) : Prop :=
  h (FileURLToPath (VStr url)) w = (Throw exn, w') \/
  exists file w1,
    h (FileURLToPath (VStr url)) w = (Normal file, w1) /\
    (h (PathDirname file) w1 = (Throw exn, w') \/
     exists dir w2,
       h (PathDirname file) w1 = (Normal dir, w2) /\
       (h Svelte w2 = (Throw exn, w') \/
        exists integ w3,
          h Svelte w2 = (Normal integ, w3) /\
          (h (PathResolve [dir; VStr "src/styles"]) w3 = (Throw exn, w') \/
           exists lp w4,
             h (PathResolve [dir; VStr "src/styles"]) w3 = (Normal lp, w4) /\
             h (DefineConfig
                  (VObj {[
                     "integrations" := VArr [integ];
                     "vite" := VObj {[
                       "css" := VObj {[
                         "preprocessorOptions" := VObj {[
                           "scss" := VObj {[
                             "api" := VStr "modern-compiler";
                             "loadPaths" := VArr [lp];
                             "additionalData" :=
                               VStr ("@use " ++ dquote ++ "utils" ++ dquote
                                     ++ " as *;")
                           ]}
                         ]}
                       ]}
                     ]}
                   ]})) w4
             = (Throw exn, w')))).

(** ** A sample environment *)

(** An environment to evaluate the module in on concrete URLs: POSIX paths,
    [file:] URLs without a host part, an integration object with a name and
    opaque hooks, and a [defineConfig] that returns its argument.  Its world
    counts the calls answered so far.  It stands in for Node and the two
    packages, which are not part of the repository; the theorems hold for
    every environment and use this one only for concrete runs. *)
Module Sample.

Definition type_error : value := VStr "ERR_INVALID_ARG_TYPE".

Definition fileURLToPath (url : value) : completion value :=
  match url with
  | VStr s =>
      if String.prefix "file://" s
      then Normal (VStr (String.substring 7 (String.length s - 7) s))
      else Throw (VStr "ERR_INVALID_URL_SCHEME")
  | _ => Throw type_error
  end.

(** What precedes the last slash, if there is a slash. *)
Fixpoint before_last_slash (s : string) : option string :=
  match s with
  | EmptyString => None
  | String c rest =>
      match before_last_slash rest with
      | Some d => Some (String c d)
      | None => if Ascii.eqb c "/"%char then Some EmptyString else None
      end
  end.

Definition dirname (p : value) : completion value :=
  match p with
  | VStr s =>
      match before_last_slash s with
      | Some EmptyString => Normal (VStr "/")
      | Some d => Normal (VStr d)
      | None => Normal (VStr ".")
      end
  | _ => Throw type_error
  end.

(** Joins the segments that follow an absolute first segment. *)
Fixpoint resolve (segments : list value) : completion value :=
  match segments with
  | [] => Normal (VStr "/")
  | [VStr s] => Normal (VStr s)
  | VStr s :: rest =>
      match resolve rest with
      | Normal (VStr r) => Normal (VStr (s ++ "/" ++ r))
      | other => other
      end
  | _ => Throw type_error
  end.

Definition svelte : value :=
  VObj {[ "name" := VStr "@astrojs/svelte"; "hooks" := VHost 1%positive ]}.

Definition node : host nat :=
  fun c n =>
    (match c with
     | FileURLToPath url => fileURLToPath url
     | PathDirname p => dirname p
     | PathResolve segments => resolve segments
     | Svelte => Normal svelte
     | DefineConfig config => Normal config
     end, S n).

Definition url : string := "file:///home/site/astro.config.mjs".
Definition styles : value := VStr "/home/site/src/styles".

Definition run_bindings : bindings nat :=
  Bindings (VStr "/home/site/astro.config.mjs") 1 (VStr "/home/site") 2
           svelte 3 styles 4.

(** A second module URL in the same directory, and one [fileURLToPath]
    rejects. *)
Definition sibling_url : string := "file:///home/site/astro.config.ts".
Definition web_url : string := "https://example.org/astro.config.mjs".

End Sample.

(** ** The example API route of the conventions document *)

(** The companion document shows an API endpoint (its lines 227-236) that
    reads the [category] search parameter and filters the collection
    entries by it.  The entries come from [getCollection]; their type is
    declared by the framework, so it is a parameter here together with the
    read of an entry's [data] object. *)
Module ApiRoute.
Section Route.
Variable Entry : Type.
Variable data : Entry -> value.

(** Truthiness of what [url.searchParams.get] returns: [null] (no such
    parameter) and the empty string are falsy. *)
Definition truthy (category : option string) : bool :=
  match category with
  | Some (String _ _) => true
  | _ => false
  end.

(** [x === category] for a string [category]: [x] must be a string with
    the same characters; [None] is [undefined]. *)
Definition strict_equals (x : option value) (category : string) : bool :=
  match x with
  | Some (VStr s) => String.eqb s category
  | _ => false
  end.

(** The value bound to [filtered] at lines 231-233. *)
Definition filtered (items : list Entry) (category : option string)
    : list Entry :=
  match category with
  | Some c =>
      if truthy category
      then List.filter (fun i => strict_equals (get "category" (data i)) c)
                       items
      else items
  | None => items
  end.
End Route.
End ApiRoute.

(** ** Running the sample *)

Example sample_run :
  run Sample.node (astro_config Sample.url) 0 =
  (Normal (config_literal Sample.svelte Sample.styles), 5).
Proof. vm_compute. reflexivity. Qed.

Example sample_bad_url :
  run Sample.node (astro_config "https://example.org/astro.config.mjs") 0 =
  (Throw (VStr "ERR_INVALID_URL_SCHEME"), 1).
Proof. vm_compute. reflexivity. Qed.

Example sample_bound : bound Sample.node Sample.url 0 Sample.run_bindings.
Proof. repeat split. Qed.

Example additionalData_characters :
  list_ascii_of_string additionalData_literal =
  ["@"; "u"; "s"; "e"; " "; "034"; "u"; "t"; "i"; "l"; "s"; "034"; " ";
   "a"; "s"; " "; "*"; ";"]%char.
Proof. reflexivity. Qed.

(** ** Evaluation lemmas *)

Section EvaluationFacts.
Context {World : Type}.
Variable h : host World.

Lemma run_invoke (c : call) (w : World) : run h (invoke c) w = h c w.
Proof. cbn. destruct (h c w) as [[v | exn] w']; reflexivity. Qed.

Lemma run_bind {A B : Type} (p : prog A) (f : A -> prog B) (w : World) :
  run h (bind p f) w =
  match run h p w with
  | (Normal a, w') => run h (f a) w'
  | (Throw exn, w') => (Throw exn, w')
  end.
Proof.
  revert w. induction p as [a | c k IH]; intros w; cbn.
  - reflexivity.
  - destruct (h c w) as [[v | exn] w']; [apply IH | reflexivity].
Qed.

Lemma trace_bind {A B : Type} (p : prog A) (f : A -> prog B) (w : World) :
  trace h (bind p f) w =
  (trace h p w ++
   match run h p w with
   | (Normal a, w') => trace h (f a) w'
   | (Throw _, _) => []
   end)%list.
Proof.
  revert w. induction p as [a | c k IH]; intros w; cbn.
  - reflexivity.
  - f_equal. destruct (h c w) as [[v | exn] w']; [apply IH | reflexivity].
Qed.

(** No program over the call alphabet can tell two worlds apart when the
    environment's answers do not depend on the world. *)
Lemma run_answers_by_call {A : Type} (p : prog A) :
  answers_by_call h ->
  forall w1 w2, (run h p w1).1 = (run h p w2).1.
Proof.
  intros Hpure. induction p as [a | c k IH]; intros w1 w2; cbn.
  - reflexivity.
  - specialize (Hpure c w1 w2).
    destruct (h c w1) as [[v1 | e1] w1'], (h c w2) as [[v2 | e2] w2'];
      cbn in Hpure; try discriminate.
    + injection Hpure as ->. apply IH.
    + injection Hpure as ->. reflexivity.
Qed.
End EvaluationFacts.

(** ** The evaluation of the module *)

Section Module_facts.
Context {World : Type}.
Variable h : host World.

(** With the four answers bound, the evaluation is the call of
    [defineConfig] on the literal, and the trace is the five calls. *)
Lemma astro_config_run (url : string) (w : World) (b : bindings World) :
  bound h url w b ->
  run h (astro_config url) w
    = h (DefineConfig (literal_of b)) (at_defineConfig b)
  /\ trace h (astro_config url) w = calls_of url w b.
Proof.
  intros (H1 & H2 & H3 & H4).
  unfold astro_config, invoke, calls_of, literal_of.
  cbn [bind run trace].
  rewrite H1, H2, H3, H4.
  destruct (h (DefineConfig _) _) as [[v | exn] w'] eqn:H5;
    rewrite ?H5; split; reflexivity.
Qed.

(** An evaluation that returns has gone through all four bindings. *)
Lemma astro_config_inv (url : string) (w : World) (cfg : value) (w' : World) :
  run h (astro_config url) w = (Normal cfg, w') ->
  exists b, bound h url w b /\
    h (DefineConfig (literal_of b)) (at_defineConfig b) = (Normal cfg, w').
Proof.
  unfold astro_config, invoke. cbn [bind run].
  destruct (h (FileURLToPath _) w) as [[file | ?] w1] eqn:H1; [| discriminate].
  destruct (h (PathDirname _) w1) as [[dir | ?] w2] eqn:H2; [| discriminate].
  destruct (h Svelte w2) as [[integ | ?] w3] eqn:H3; [| discriminate].
  destruct (h (PathResolve _) w3) as [[lp | ?] w4] eqn:H4; [| discriminate].
  destruct (h (DefineConfig _) w4) as [[v | ?] w5] eqn:H5; [| discriminate].
  intros [= <- <-].
  exists (Bindings file w1 dir w2 integ w3 lp w4).
  unfold bound, literal_of. cbn. auto.
Qed.

(** When [defineConfig] returns its argument, the default export is the
    literal. *)
Lemma export_is_literal (url : string) (w : World) (cfg : value) (w' : World) :
  defineConfig_hands_back h ->
  run h (astro_config url) w = (Normal cfg, w') ->
  exists b, bound h url w b /\ cfg = literal_of b.
Proof.
  intros Hid Hrun. apply astro_config_inv in Hrun as (b & Hb & Hlast).
  exists b. split; [exact Hb |].
  specialize (Hid (literal_of b) (at_defineConfig b)).
  rewrite Hlast in Hid. cbn in Hid. congruence.
Qed.
End Module_facts.

(** ** Properties of the literal *)

Lemma get_absent (k : string) (o : value) : k ∉ keys o -> get k o = None.
Proof.
  destruct o as [s | items | props | ref]; cbn; try reflexivity.
  intros Hk. apply not_elem_of_dom, Hk.
Qed.

Lemma literal_keys (integ lp : value) :
  keys (config_literal integ lp) = {[ "integrations"; "vite" ]}.
Proof. reflexivity. Qed.

Lemma literal_scss (integ lp : value) :
  get_path scss_path (config_literal integ lp) =
  Some (VObj {[ "api" := VStr "modern-compiler";
                "loadPaths" := VArr [lp];
                "additionalData" := VStr additionalData_literal ]}).
Proof. reflexivity. Qed.

(** ** The exported configuration *)

(** C1.  In the exported configuration, the object under
    vite.css.preprocessorOptions.scss has [api] equal to the string
    'modern-compiler', has [loadPaths] equal to an array (the list of
    include search paths), and has [additionalData] equal to the
    use-statement [@use "utils" as *;].  This holds for every environment
    whose [defineConfig] returns its argument and every evaluation that
    returns. *)
Theorem scss_preprocessor_options {World : Type} (h : host World)
    (url : string) (w : World) (cfg : value) (w' : World) :
  defineConfig_hands_back h ->
  run h (astro_config url) w = (Normal cfg, w') ->
  exists scss,
    get_path scss_path cfg = Some scss /\
    get "api" scss = Some (VStr "modern-compiler") /\
    (exists paths, get "loadPaths" scss = Some (VArr paths)) /\
    get "additionalData" scss
      = Some (VStr ("@use " ++ dquote ++ "utils" ++ dquote ++ " as *;")).
Proof.
  intros Hid Hrun.
  destruct (export_is_literal h url w cfg w' Hid Hrun) as (b & _ & ->).
  unfold literal_of. eexists. split; [apply literal_scss |].
  split; [reflexivity |]. split; [| reflexivity].
  exists [loadPath b]. reflexivity.
Qed.

Lemma scss_preprocessor_options_sample :
  exists scss,
    get_path scss_path (config_literal Sample.svelte Sample.styles)
      = Some scss /\
    get "api" scss = Some (VStr "modern-compiler") /\
    (exists paths, get "loadPaths" scss = Some (VArr paths)) /\
    get "additionalData" scss
      = Some (VStr ("@use " ++ dquote ++ "utils" ++ dquote ++ " as *;")).
Proof.
  apply (scss_preprocessor_options Sample.node Sample.url 0 _ 5).
  - intros config n. reflexivity.
  - vm_compute. reflexivity.
Defined.

(** C2.  The [integrations] property of the exported configuration is an
    array of exactly one element, and that element is the value the call
    [svelte()] returned during the evaluation. *)
Theorem integrations_is_svelte_alone {World : Type} (h : host World)
    (url : string) (w : World) (cfg : value) (w' : World) :
  defineConfig_hands_back h ->
  run h (astro_config url) w = (Normal cfg, w') ->
  exists b,
    bound h url w b /\
    h Svelte (at_svelte b) = (Normal (integration b), at_resolve b) /\
    get "integrations" cfg = Some (VArr [integration b]).
Proof.
  intros Hid Hrun.
  destruct (export_is_literal h url w cfg w' Hid Hrun) as (b & Hb & ->).
  exists b. split; [exact Hb |]. split; [apply Hb | reflexivity].
Qed.

Lemma integrations_is_svelte_alone_sample :
  exists b,
    bound Sample.node Sample.url 0 b /\
    Sample.node Svelte (at_svelte b) = (Normal (integration b), at_resolve b) /\
    get "integrations" (config_literal Sample.svelte Sample.styles)
      = Some (VArr [integration b]).
Proof.
  apply (integrations_is_svelte_alone Sample.node Sample.url 0 _ 5).
  - intros config n. reflexivity.
  - vm_compute. reflexivity.
Defined.

(** C8.  The [loadPaths] array of the exported SCSS options has exactly one
    entry: the value [path.resolve] returned for the two segments
    [__dirname] and 'src/styles', where [__dirname] is what [path.dirname]
    returned for the file path of the module's own URL. *)
Theorem loadPaths_single_entry {World : Type} (h : host World)
    (url : string) (w : World) (cfg : value) (w' : World) :
  defineConfig_hands_back h ->
  run h (astro_config url) w = (Normal cfg, w') ->
  exists b scss,
    h (FileURLToPath (VStr url)) w = (Normal (filename b), at_dirname b) /\
    h (PathDirname (filename b)) (at_dirname b)
      = (Normal (__dirname b), at_svelte b) /\
    h (PathResolve [__dirname b; VStr "src/styles"]) (at_resolve b)
      = (Normal (loadPath b), at_defineConfig b) /\
    get_path scss_path cfg = Some scss /\
    get "loadPaths" scss = Some (VArr [loadPath b]).
Proof.
  intros Hid Hrun.
  destruct (export_is_literal h url w cfg w' Hid Hrun) as (b & Hb & ->).
  destruct Hb as (H1 & H2 & _ & H4).
  exists b. eexists. repeat (split; [eassumption |]).
  split; [apply literal_scss | reflexivity].
Qed.

Lemma loadPaths_single_entry_sample :
  exists b scss,
    Sample.node (FileURLToPath (VStr Sample.url)) 0
      = (Normal (filename b), at_dirname b) /\
    Sample.node (PathDirname (filename b)) (at_dirname b)
      = (Normal (__dirname b), at_svelte b) /\
    Sample.node (PathResolve [__dirname b; VStr "src/styles"]) (at_resolve b)
      = (Normal (loadPath b), at_defineConfig b) /\
    get_path scss_path (config_literal Sample.svelte Sample.styles)
      = Some scss /\
    get "loadPaths" scss = Some (VArr [loadPath b]).
Proof.
  apply (loadPaths_single_entry Sample.node Sample.url 0 _ 5).
  - intros config n. reflexivity.
  - vm_compute. reflexivity.
Defined.

(** C10.  The exported configuration has the two properties [integrations]
    and [vite] and no other; [vite] has [css] only, [css] has
    [preprocessorOptions] only, and [preprocessorOptions] has [scss] only.
    Any other property, such as [site], [output], [markdown] or [server],
    is absent from the object. *)
Theorem only_integrations_and_scss {World : Type} (h : host World)
    (url : string) (w : World) (cfg : value) (w' : World) :
  defineConfig_hands_back h ->
  run h (astro_config url) w = (Normal cfg, w') ->
  keys cfg = {[ "integrations"; "vite" ]} /\
  (exists vite css options,
     get "vite" cfg = Some vite /\ keys vite = {[ "css" ]} /\
     get "css" vite = Some css /\ keys css = {[ "preprocessorOptions" ]} /\
     get "preprocessorOptions" css = Some options /\
     keys options = {[ "scss" ]}) /\
  (forall k, k <> "integrations" -> k <> "vite" -> get k cfg = None) /\
  get "site" cfg = None /\ get "output" cfg = None /\
  get "markdown" cfg = None /\ get "server" cfg = None.
Proof.
  intros Hid Hrun.
  destruct (export_is_literal h url w cfg w' Hid Hrun) as (b & _ & ->).
  unfold literal_of. split; [apply literal_keys |]. split.
  - do 3 eexists. repeat (split; [reflexivity |]). reflexivity.
  - split; [| repeat split].
    intros k Hk1 Hk2. apply get_absent. rewrite literal_keys.
    rewrite elem_of_union, !elem_of_singleton. tauto.
Qed.

Lemma only_integrations_and_scss_sample :
  keys (config_literal Sample.svelte Sample.styles)
    = {[ "integrations"; "vite" ]} /\
  (exists vite css options,
     get "vite" (config_literal Sample.svelte Sample.styles) = Some vite /\
     keys vite = {[ "css" ]} /\
     get "css" vite = Some css /\ keys css = {[ "preprocessorOptions" ]} /\
     get "preprocessorOptions" css = Some options /\
     keys options = {[ "scss" ]}) /\
  (forall k, k <> "integrations" -> k <> "vite" ->
     get k (config_literal Sample.svelte Sample.styles) = None) /\
  get "site" (config_literal Sample.svelte Sample.styles) = None /\
  get "output" (config_literal Sample.svelte Sample.styles) = None /\
  get "markdown" (config_literal Sample.svelte Sample.styles) = None /\
  get "server" (config_literal Sample.svelte Sample.styles) = None.
Proof.
  apply (only_integrations_and_scss Sample.node Sample.url 0 _ 5).
  - intros config n. reflexivity.
  - vm_compute. reflexivity.
Defined.

(** ** Failure and success of the evaluation *)

(** C4.  The module has no failure of its own and handles none.  For a
    well-formed module URL, and imported functions that keep their
    contracts, the evaluation returns, and what it returns is a
    configuration object: its own properties are [integrations] and [vite],
    [integrations] holds the one integration and the SCSS options are the
    three of the source.  The evaluation throws [exn] exactly when one of
    its five calls, reached in source order, threw [exn]; it then stops in
    the state that call left. *)
Theorem no_failure_of_its_own {World : Type} (h : host World)
    (url : string) (w : World) :
  (well_formed_url h url ->
   imports_return h ->
   exists cfg w' integ (loadPath : string),
     run h (astro_config url) w = (Normal cfg, w') /\
     keys cfg = {[ "integrations"; "vite" ]} /\
     get "integrations" cfg = Some (VArr [integ]) /\
     get_path scss_path cfg
     = Some (VObj {[ "api" := VStr "modern-compiler";
                     "loadPaths" := VArr [VStr loadPath];
                     "additionalData" :=
                       VStr ("@use " ++ dquote ++ "utils" ++ dquote
                             ++ " as *;") ]})) /\
  (forall exn w',
     run h (astro_config url) w = (Throw exn, w') <->
     import_threw h url w exn w').
Proof.
  split.
  - intros Hurl (Hdir & Hsvelte & Hresolve & Hid).
    destruct (Hurl w) as (file & w1 & H1).
    destruct (Hdir file w1) as (dir & w2 & H2).
    destruct (Hsvelte w2) as (integ & w3 & H3).
    destruct (Hresolve dir "src/styles" w3) as (lp & w4 & H4).
    pose (b := Bindings (VStr file) w1 (VStr dir) w2 integ w3 (VStr lp) w4).
    assert (Hb : bound h url w b) by (unfold bound; cbn; auto).
    destruct (astro_config_run h url w b Hb) as [Hrun _].
    change (at_defineConfig b) with w4 in Hrun.
    specialize (Hid (literal_of b) w4).
    destruct (h (DefineConfig (literal_of b)) w4) as [r w5] eqn:H5.
    cbn in Hid. subst r.
    exists (literal_of b), w5, integ, lp.
    split; [exact Hrun |]. repeat split.
  - intros exn w'. unfold import_threw, astro_config, invoke.
    cbn [bind run]. split.
    + intros Hrun.
      destruct (h (FileURLToPath _) w) as [[file | e] w1];
        [right; exists file, w1; split; [reflexivity |] | left; exact Hrun].
      destruct (h (PathDirname _) w1) as [[dir | e] w2];
        [right; exists dir, w2; split; [reflexivity |] | left; exact Hrun].
      destruct (h Svelte w2) as [[integ | e] w3];
        [right; exists integ, w3; split; [reflexivity |] | left; exact Hrun].
      destruct (h (PathResolve _) w3) as [[lp | e] w4];
        [right; exists lp, w4; split; [reflexivity |] | left; exact Hrun].
      unfold config_literal, additionalData_literal in Hrun.
      destruct (h (DefineConfig _) w4) as [[v | e] w5];
        [discriminate | exact Hrun].
    + intros [H1 | (file & w1 & H1 & H)]; rewrite H1; [reflexivity |].
      destruct H as [H2 | (dir & w2 & H2 & H)]; rewrite H2; [reflexivity |].
      destruct H as [H3 | (integ & w3 & H3 & H)]; rewrite H3; [reflexivity |].
      destruct H as [H4 | (lp & w4 & H4 & H)]; rewrite H4; [reflexivity |].
      unfold config_literal, additionalData_literal. rewrite H. reflexivity.
Qed.

Lemma no_failure_of_its_own_sample :
  (exists cfg w' integ (loadPath : string),
     run Sample.node (astro_config Sample.url) 0 = (Normal cfg, w') /\
     keys cfg = {[ "integrations"; "vite" ]} /\
     get "integrations" cfg = Some (VArr [integ]) /\
     get_path scss_path cfg
     = Some (VObj {[ "api" := VStr "modern-compiler";
                     "loadPaths" := VArr [VStr loadPath];
                     "additionalData" :=
                       VStr ("@use " ++ dquote ++ "utils" ++ dquote
                             ++ " as *;") ]})) /\
  (run Sample.node (astro_config Sample.web_url) 0
     = (Throw (VStr "ERR_INVALID_URL_SCHEME"), 1) <->
   import_threw Sample.node Sample.web_url 0
     (VStr "ERR_INVALID_URL_SCHEME") 1).
Proof.
  split.
  - apply (proj1 (no_failure_of_its_own Sample.node Sample.url 0)).
    + intros n. do 2 eexists. reflexivity.
    + repeat split.
      * intros file n. unfold Sample.node, Sample.dirname.
        destruct (Sample.before_last_slash file) as [[| a d] |];
          do 2 eexists; reflexivity.
      * intros n. do 2 eexists. reflexivity.
      * intros dir segment n. do 2 eexists. reflexivity.
  - apply (proj2 (no_failure_of_its_own Sample.node Sample.web_url 0)).
Defined.

(** ** What [defineConfig] receives *)

(** X1.  [defineConfig] is applied only when the four calls before it have
    returned, only to the literal built from their answers, and as the last
    of the five calls.  This does not depend on what [defineConfig] does. *)
Theorem defineConfig_receives_literal {World : Type} (h : host World)
    (url : string) (w : World) (config : value) (w0 : World) :
  In (DefineConfig config, w0) (trace h (astro_config url) w) ->
  exists b,
    bound h url w b /\
    config = literal_of b /\
    w0 = at_defineConfig b /\
    trace h (astro_config url) w = calls_of url w b.
Proof.
  unfold astro_config, invoke. cbn [bind trace].
  destruct (h (FileURLToPath _) w) as [[file | ?] w1] eqn:H1;
    [| intros [[=] | []]].
  destruct (h (PathDirname _) w1) as [[dir | ?] w2] eqn:H2;
    [| intros [[=] | [[=] | []]]].
  destruct (h Svelte w2) as [[integ | ?] w3] eqn:H3;
    [| intros [[=] | [[=] | [[=] | []]]]].
  destruct (h (PathResolve _) w3) as [[lp | ?] w4] eqn:H4;
    [| intros [[=] | [[=] | [[=] | [[=] | []]]]]].
  intros [[=] | [[=] | [[=] | [[=] | Hlast]]]].
  exists (Bindings file w1 dir w2 integ w3 lp w4).
  assert (Hc : config = config_literal integ lp /\ w0 = w4).
  { destruct (h (DefineConfig _) w4) as [[v | ?] w5];
      destruct Hlast as [[= <- <-] | []]; auto. }
  destruct Hc as [-> ->].
  unfold bound, literal_of, calls_of. cbn.
  split; [repeat split; assumption |].
  do 2 (split; [reflexivity |]).
  destruct (h (DefineConfig _) w4) as [[v | ?] w5]; reflexivity.
Qed.

Lemma defineConfig_receives_literal_sample :
  exists b,
    bound Sample.node Sample.url 0 b /\
    config_literal Sample.svelte Sample.styles = literal_of b /\
    4 = at_defineConfig b /\
    trace Sample.node (astro_config Sample.url) 0 = calls_of Sample.url 0 b.
Proof.
  apply (defineConfig_receives_literal Sample.node Sample.url 0).
  vm_compute. do 4 right. left. reflexivity.
Defined.

(** X2.  An evaluation that throws has either not called [defineConfig] at all,
    or has called it on the complete literal and it is [defineConfig] that
    threw: no partly built configuration is ever handed over. *)
Theorem throw_leaves_defineConfig_out {World : Type} (h : host World)
    (url : string) (w : World) (exn : value) (w' : World) :
  run h (astro_config url) w = (Throw exn, w') ->
  (forall config w0,
     ~ In (DefineConfig config, w0) (trace h (astro_config url) w)) \/
  (exists b,
     bound h url w b /\
     h (DefineConfig (literal_of b)) (at_defineConfig b) = (Throw exn, w')).
Proof.
  unfold astro_config, invoke. cbn [bind trace run].
  destruct (h (FileURLToPath _) w) as [[file | ?] w1] eqn:H1;
    [| intros _; left; intros c w0 [[=] | []]].
  destruct (h (PathDirname _) w1) as [[dir | ?] w2] eqn:H2;
    [| intros _; left; intros c w0 [[=] | [[=] | []]]].
  destruct (h Svelte w2) as [[integ | ?] w3] eqn:H3;
    [| intros _; left; intros c w0 [[=] | [[=] | [[=] | []]]]].
  destruct (h (PathResolve _) w3) as [[lp | ?] w4] eqn:H4;
    [| intros _; left; intros c w0 [[=] | [[=] | [[=] | [[=] | []]]]]].
  destruct (h (DefineConfig _) w4) as [[v | e] w5] eqn:H5; [discriminate |].
  intros [= -> ->]. right.
  exists (Bindings file w1 dir w2 integ w3 lp w4).
  unfold bound, literal_of. cbn. auto.
Qed.

Lemma throw_leaves_defineConfig_out_sample :
  (forall config w0,
     ~ In (DefineConfig config, w0)
          (trace Sample.node (astro_config Sample.web_url) 0)) \/
  (exists b,
     bound Sample.node Sample.web_url 0 b /\
     Sample.node (DefineConfig (literal_of b)) (at_defineConfig b)
       = (Throw (VStr "ERR_INVALID_URL_SCHEME"), 1)).
Proof.
  apply (throw_leaves_defineConfig_out Sample.node Sample.web_url 0).
  vm_compute. reflexivity.
Defined.

(** ** The SCSS options and nothing else *)

(** X4.  The SCSS options object of the exported configuration has exactly
    three own properties, [api], [loadPaths] and [additionalData]: the
    module sets no other SCSS option, so any other name is not an own
    property of that object. *)
Theorem scss_options_own_keys {World : Type} (h : host World)
    (url : string) (w : World) (cfg : value) (w' : World) :
  defineConfig_hands_back h ->
  run h (astro_config url) w = (Normal cfg, w') ->
  exists scss,
    get_path scss_path cfg = Some scss /\
    keys scss = {[ "api"; "loadPaths"; "additionalData" ]} /\
    (forall k, k <> "api" -> k <> "loadPaths" -> k <> "additionalData" ->
               get k scss = None).
Proof.
  intros Hid Hrun.
  destruct (export_is_literal h url w cfg w' Hid Hrun) as (b & _ & ->).
  unfold literal_of. eexists. split; [apply literal_scss |].
  split; [reflexivity |].
  intros k Ha Hl Hd. apply get_absent.
  change (k ∉ ({[ "api"; "loadPaths"; "additionalData" ]} : gset string)).
  rewrite !elem_of_union, !elem_of_singleton. tauto.
Qed.

Lemma scss_options_own_keys_sample :
  exists scss,
    get_path scss_path (config_literal Sample.svelte Sample.styles)
      = Some scss /\
    keys scss = {[ "api"; "loadPaths"; "additionalData" ]} /\
    (forall k, k <> "api" -> k <> "loadPaths" -> k <> "additionalData" ->
               get k scss = None).
Proof.
  apply (scss_options_own_keys Sample.node Sample.url 0 _ 5).
  - intros config n. reflexivity.
  - vm_compute. reflexivity.
Defined.

(** ** The URL matters through its directory only *)

(** X5.  Two module URLs whose file paths have the same directory (the same
    answer of [path.dirname]) give the same export, when the imported
    functions answer by their arguments alone: beyond line 7 nothing reads
    the URL or the file name. *)
Theorem export_depends_on_directory_only {World : Type} (h : host World)
    (url1 url2 : string) (file1 file2 : value) (wa wb wc wd : World) :
  answers_by_call h ->
  (h (FileURLToPath (VStr url1)) wa).1 = Normal file1 ->
  (h (FileURLToPath (VStr url2)) wb).1 = Normal file2 ->
  (h (PathDirname file1) wc).1 = (h (PathDirname file2) wd).1 ->
  forall w1 w2 : World,
    (run h (astro_config url1) w1).1 = (run h (astro_config url2) w2).1.
Proof.
  intros Hpure Hf1 Hf2 Hdir w1 w2.
  pose (rest := fun dir : value =>
    (const integration <- invoke Svelte;;
     const loadPath <- invoke (PathResolve [dir; VStr "src/styles"]);;
     invoke (DefineConfig (config_literal integration loadPath)))%prog).
  assert (Hshape : forall url w,
    run h (astro_config url) w =
    match h (FileURLToPath (VStr url)) w with
    | (Normal file, w') =>
        match h (PathDirname file) w' with
        | (Normal dir, w'') => run h (rest dir) w''
        | (Throw exn, w'') => (Throw exn, w'')
        end
    | (Throw exn, w') => (Throw exn, w')
    end) by reflexivity.
  rewrite !Hshape.
  rewrite (Hpure _ wa w1) in Hf1. rewrite (Hpure _ wb w2) in Hf2.
  destruct (h (FileURLToPath (VStr url1)) w1) as [r1 w1'].
  destruct (h (FileURLToPath (VStr url2)) w2) as [r2 w2'].
  cbn in Hf1, Hf2. subst r1 r2.
  rewrite (Hpure _ wc w1'), (Hpure _ wd w2') in Hdir.
  destruct (h (PathDirname file1) w1') as [[d1 | e1] w1''],
           (h (PathDirname file2) w2') as [[d2 | e2] w2''];
    cbn in Hdir; try discriminate.
  - injection Hdir as ->. apply run_answers_by_call, Hpure.
  - injection Hdir as ->. reflexivity.
Qed.

Lemma export_depends_on_directory_only_sample :
  (run Sample.node (astro_config Sample.url) 0).1
  = (run Sample.node (astro_config Sample.sibling_url) 9).1.
Proof.
  apply (export_depends_on_directory_only Sample.node
           Sample.url Sample.sibling_url
           (VStr "/home/site/astro.config.mjs")
           (VStr "/home/site/astro.config.ts") 0 0 0 0).
  - intros c n1 n2. reflexivity.
  - reflexivity.
  - reflexivity.
  - reflexivity.
Defined.

(** ** The example API route *)

Section Route_facts.
Variable Entry : Type.
Variable data : Entry -> value.

Local Abbreviation filtered := (ApiRoute.filtered Entry data).

Lemma strict_equals_string (x : option value) (c : string) :
  ApiRoute.strict_equals x c = true <-> x = Some (VStr c).
Proof.
  destruct x as [[s | items | props | ref] |]; cbn;
    try (split; [discriminate | intros [=]]).
  rewrite String.eqb_eq. split; [intros -> | intros [= ->]]; reflexivity.
Qed.

(** X6.  An entry is in the response exactly when it is among the collection
    entries and, if the [category] parameter is present and not empty, its
    [data.category] is that string.  Without the parameter, or with an
    empty one, every entry is returned. *)
Theorem filtered_membership (items : list Entry) (category : option string)
    (i : Entry) :
  In i (filtered items category) <->
  In i items /\
  forall c, category = Some c -> c <> "" ->
            get "category" (data i) = Some (VStr c).
Proof.
  unfold ApiRoute.filtered.
  destruct category as [[| a c] |]; cbn [ApiRoute.truthy].
  - split; [intros Hi; split; [exact Hi |] | intros [Hi _]; exact Hi].
    intros c [= <-] Hne. contradiction.
  - rewrite filter_In, strict_equals_string. split.
    + intros [Hi Hc]. split; [exact Hi |]. intros c' [= <-] _. exact Hc.
    + intros [Hi Hc]. split; [exact Hi |]. apply Hc; [reflexivity | discriminate].
  - split; [intros Hi; split; [exact Hi |] | intros [Hi _]; exact Hi].
    intros c [=].
Qed.

(** X7.  The response keeps the entries in collection order and adds none: it
    is a sublist of the collection, so it is never longer. *)
Theorem filtered_sublist (items : list Entry) (category : option string) :
  sublist (filtered items category) items /\
  length (filtered items category) <= length items.
Proof.
  assert (Hsub : sublist (filtered items category) items).
  { unfold ApiRoute.filtered.
    destruct category as [c |]; [| reflexivity].
    destruct (ApiRoute.truthy (Some c)); [| reflexivity].
    induction items as [| i items IH]; cbn; [constructor |].
    destruct (ApiRoute.strict_equals _ c); constructor; exact IH. }
  split; [exact Hsub | apply sublist_length, Hsub].
Qed.
End Route_facts.
